(** * discord-link-bot: a shallow embedding of [bot.py]

    The bot listens to chat messages, recognises a Spotify or a TIDAL track
    link, asks the link's own service for the track's artist and title, asks
    the other service for a track with that artist and title, and replies
    with the link of the first track found.

    The development has four parts: Python's [str] operations used by the
    bot, a monad for the effects of the handlers (outbound calls, console
    output, replies, exceptions), the handlers themselves, and the
    properties proved about them. *)

From Stdlib Require Import DecimalString.
From stdpp Require Import gmap list strings.

Local Open Scope N_scope.

(** ** Python strings *)

(** A Python [str] is a sequence of Unicode code points. *)
Definition str : Type := list N.

(** An ASCII literal of the source, as a [str]. *)
Definition py (s : string) : str :=
  map Ascii.N_of_ascii (String.list_ascii_of_string s).
Arguments py s%_string.

(** [str(n)] for a non-negative [int]. *)
Definition str_of_int (n : N) : str :=
  py (NilZero.string_of_uint (N.to_uint n)).

(** [s.startswith(p)]. *)
Fixpoint startswith (p s : str) : bool :=
  match p, s with
  | [], _ => true
  | _ :: _, [] => false
  | a :: p', b :: s' => (a =? b) && startswith p' s'
  end.

(** [p in s]: [p] occurs in [s] as a substring. *)
Fixpoint contains (p s : str) : bool :=
  startswith p s ||
  match s with
  | [] => false
  | _ :: s' => contains p s'
  end.

(** [s.partition(sep)] where [sep] occurs: the text before the first
    occurrence of [sep] and the text after it; [None] where it does not
    occur. *)
Fixpoint partition_first (sep s : str) : option (str * str) :=
  if startswith sep s then Some ([], drop (length sep) s)
  else match s with
       | [] => None
       | c :: s' =>
           match partition_first sep s' with
           | Some (a, b) => Some (c :: a, b)
           | None => None
           end
       end.

(** [s.split(sep)] for a non-empty [sep]: cut [s] at the occurrences of
    [sep], found from the left and not overlapping.  Each cut leaves a
    shorter text, so [fuel] above the length of [s] is never used up. *)
Fixpoint split_fuel (fuel : nat) (sep s : str) : list str :=
  match fuel with
  | O => [s]
  | S fuel' =>
      match partition_first sep s with
      | None => [s]
      | Some (a, b) => a :: split_fuel fuel' sep b
      end
  end.

Definition split (sep s : str) : list str :=
  split_fuel (S (length s)) sep s.

(** The characters [str.strip()] removes: those for which [str.isspace()]
    holds. *)
Definition is_space (c : N) : bool :=
  ((9 <=? c) && (c <=? 13)) || ((28 <=? c) && (c <=? 32)) ||
  (c =? 133) || (c =? 160) || (c =? 5760) ||
  ((8192 <=? c) && (c <=? 8202)) || (c =? 8232) || (c =? 8233) ||
  (c =? 8239) || (c =? 8287) || (c =? 12288).

Fixpoint lstrip (s : str) : str :=
  match s with
  | [] => []
  | c :: s' => if is_space c then lstrip s' else s
  end.

Fixpoint rstrip (s : str) : str :=
  match s with
  | [] => []
  | c :: s' =>
      match rstrip s' with
      | [] => if is_space c then [] else [c]
      | r => c :: r
      end
  end.

(** [s.strip()]. *)
Definition strip (s : str) : str := lstrip (rstrip s).

(** Truth value of a [str] or [None]: [None] and the empty string are
    false. *)
Definition truthy (o : option str) : bool :=
  match o with
  | Some (_ :: _) => true
  | _ => false
  end.

(** ** Data of the two services and of the chat platform *)

(** A track object of the Spotify Web API, as [sp.track] and [sp.search]
    return it: the keys the bot reads. *)
Module Spotify.
Record Artist : Type := { name : str }.
Record Track : Type := {
  artists : list Artist;
  track_name : str;                 (* key ['name'] *)
  external_urls : gmap str str
}.
End Spotify.

(** A [tidalapi.media.Track], as [tidal_session.track] and
    [tidal_session.search] return it: the attributes the bot reads. *)
Module Tidal.
Record Artist : Type := { name : str }.
Record Track : Type := {
  id : N;
  track_name : str;                 (* attribute [name] *)
  artist : option Artist
}.
End Tidal.

(** A chat message: its author's user id and its text. *)
Record Message : Type := { author : N; content : str }.

(** ** Effects *)

(** The exceptions of the model, all instances of Python's [Exception]:
    failures raised inside the two provider libraries, failures raised by
    the chat library, and the run-time errors of indexing and attribute
    access. *)
Inductive exn : Type :=
| ProviderError (msg : str)
| ChatError (msg : str)
| IndexError
| KeyError (key : str)
| AttributeError (attr : str).

(** [str(e)], as an f-string prints an exception. *)
Definition exn_str (e : exn) : str :=
  match e with
  | ProviderError msg => msg
  | ChatError msg => msg
  | IndexError => py "list index out of range"
  | KeyError key => py "'" ++ key ++ py "'"
  | AttributeError attr =>
      py "'NoneType' object has no attribute '" ++ attr ++ py "'"
  end.

(** An outbound request to a music service. *)
Inductive call : Type :=
| SpTrack (track_id : str)            (* sp.track(track_id) *)
| SpSearch (q : str)                  (* sp.search(q=..., limit=1, type='track') *)
| TidalTrack (track_id : str)         (* tidal_session.track(track_id) *)
| TidalSearch (query : str).          (* tidal_session.search(query, ..., limit=1) *)

(** What a handler does that can be observed from outside. *)
Inductive event : Type :=
| Call (c : call)
| Print (line : str)                  (* print(line) *)
| Reply (text : str)                  (* message.reply(text) *)
| ProcessCommands.                    (* bot.process_commands(message) *)

(** What an external call answers: a value, or an exception with its
    message. *)
Inductive answer (X : Type) : Type :=
| Returns (x : X)
| Fails (msg : str).
Arguments Returns {X} x.
Arguments Fails {X} msg.

(** The world outside the bot: the two music services and the chat
    platform.  [W] is the state of that world; every request may change it
    (a catalogue changes, a network recovers), so the same request can be
    answered differently the next time.

    [sp_search] answers with [results['tracks']['items']] and
    [tidal_session_search] with [search_results['tracks']]. *)
Record Services (W : Type) : Type := {
  sp_track : str -> W -> answer Spotify.Track * W;
  sp_search : str -> W -> answer (list Spotify.Track) * W;
  tidal_session_track : str -> W -> answer Tidal.Track * W;
  tidal_session_search : str -> W -> answer (list Tidal.Track) * W;
  message_reply : Message -> str -> W -> answer unit * W;
  bot_process_commands : Message -> W -> answer unit * W;
  bot_user : N
}.
Arguments sp_track {W} _ _ _.
Arguments sp_search {W} _ _ _.
Arguments tidal_session_track {W} _ _ _.
Arguments tidal_session_search {W} _ _ _.
Arguments message_reply {W} _ _ _ _.
Arguments bot_process_commands {W} _ _ _.
Arguments bot_user {W} _.

(** How a computation ends: with a value, or with an exception raised and
    not caught. *)
Inductive outcome (A : Type) : Type :=
| Normal (a : A)
| Raise (e : exn).
Arguments Normal {A} a.
Arguments Raise {A} e.

(** A finished computation: how it ended, the world it left, and the events
    it caused, oldest first. *)
Record run (W A : Type) : Type := Run {
  result : outcome A;
  final : W;
  events : list event
}.
Arguments Run {W A} _ _ _.
Arguments result {W A} _.
Arguments final {W A} _.
Arguments events {W A} _.

(** A computation of the bot, started in a world. *)
Definition M (W A : Type) : Type := W -> run W A.

Definition ret {W A : Type} (a : A) : M W A := fun w => Run (Normal a) w [].

Definition raise {W A : Type} (e : exn) : M W A := fun w => Run (Raise e) w [].

Definition bind {W A B : Type} (m : M W A) (k : A -> M W B) : M W B :=
  fun w =>
    match m w with
    | Run (Normal a) w1 evs1 =>
        match k a w1 with
        | Run r w2 evs2 => Run r w2 (evs1 ++ evs2)
        end
    | Run (Raise e) w1 evs1 => Run (Raise e) w1 evs1
    end.

(** [try: body except Exception as e: handler e]. *)
Definition try_except {W A : Type} (body : M W A) (handler : exn -> M W A) : M W A :=
  fun w =>
    match body w with
    | Run (Normal a) w1 evs1 => Run (Normal a) w1 evs1
    | Run (Raise e) w1 evs1 =>
        match handler e w1 with
        | Run r w2 evs2 => Run r w2 (evs1 ++ evs2)
        end
    end.

Definition emit {W : Type} (e : event) : M W unit := fun w => Run (Normal tt) w [e].

(** An external call: the event [e] is recorded, the world answers, and a
    failure is raised as the exception [err]. *)
Definition external {W X : Type} (e : event) (err : str -> exn)
    (h : W -> answer X * W) : M W X :=
  fun w =>
    match h w with
    | (Returns x, w') => Run (Normal x) w' [e]
    | (Fails msg, w') => Run (Raise (err msg)) w' [e]
    end.

Declare Scope bot_scope.
Delimit Scope bot_scope with bot.
Notation "x <- m ;; k" := (bind m (fun x => k))
  (at level 100, m at next level, right associativity) : bot_scope.
Notation "m ;; k" := (bind m (fun _ => k))
  (at level 100, right associativity) : bot_scope.
Local Open Scope bot_scope.

(** [l[i]]. *)
Definition index {W A : Type} (l : list A) (i : nat) : M W A :=
  match l !! i with
  | Some x => ret x
  | None => raise IndexError
  end.

(** [d[key]]. *)
Definition item {W : Type} (d : gmap str str) (key : str) : M W str :=
  match d !! key with
  | Some v => ret v
  | None => raise (KeyError key)
  end.

(** [o.attr] of an object that may be [None]. *)
Definition attribute {W A : Type} (o : option A) (attr : str) : M W A :=
  match o with
  | Some x => ret x
  | None => raise (AttributeError attr)
  end.

Definition print {W : Type} (line : str) : M W unit := emit (Print line).

(** [{x}] of a [str] or [None] in an f-string. *)
Definition format (o : option str) : str :=
  match o with
  | Some s => s
  | None => py "None"
  end.

(** The two texts [on_message] looks for in a message. *)
Definition spotify_anchor : str := py "open.spotify.com/track/".
Definition tidal_anchor : str := py "tidal.com/browse/track/".

(** The two replies, [f"... **TIDAL Conversion:**\n{tidal_link}"] and its
    Spotify twin.  Each starts with four characters, given here by their
    code points as the source file has them, and has a line feed before the
    link. *)
Definition tidal_conversion (link : str) : str :=
  [240; 376; 381; 181] ++ py " **TIDAL Conversion:**" ++ [10] ++ link.
Definition spotify_conversion (link : str) : str :=
  [240; 376; 8217; 353] ++ py " **Spotify Conversion:**" ++ [10] ++ link.

(** ** The handlers of [bot.py] *)

Section Bot.
Context {W : Type} (svc : Services W).

(** [sp.track(track_id)] and the other requests to the two services. *)
Definition sp_track_call (track_id : str) : M W Spotify.Track :=
  external (Call (SpTrack track_id)) ProviderError (sp_track svc track_id).

Definition sp_search_call (q : str) : M W (list Spotify.Track) :=
  external (Call (SpSearch q)) ProviderError (sp_search svc q).

Definition tidal_track_call (track_id : str) : M W Tidal.Track :=
  external (Call (TidalTrack track_id)) ProviderError
    (tidal_session_track svc track_id).

Definition tidal_search_call (query : str) : M W (list Tidal.Track) :=
  external (Call (TidalSearch query)) ProviderError
    (tidal_session_search svc query).

(** [await message.reply(text)]. *)
Definition reply (message : Message) (text : str) : M W unit :=
  external (Reply text) ChatError (message_reply svc message text).

(** [await bot.process_commands(message)]. *)
Definition process_commands (message : Message) : M W unit :=
  external ProcessCommands ChatError (bot_process_commands svc message).

(** [get_tidal_url(artist, track_name)]: the [return] inside [try] and the
    [return None] after it are the two values of the body. *)
Definition get_tidal_url (artist track_name : str) : M W (option str) :=
  try_except
    (let query := artist ++ py " - " ++ track_name in
     search_results <- tidal_search_call query ;;
     match search_results with
     | _ :: _ =>
         track <- index search_results 0 ;;
         ret (Some (py "https://tidal.com/browse/track/" ++
                    str_of_int (Tidal.id track)))
     | [] => ret None
     end)
    (fun e =>
       print (py "Error searching TIDAL: " ++ exn_str e) ;;
       ret None).

(** [get_spotify_url(artist, track_name)]. *)
Definition get_spotify_url (artist track_name : str) : M W (option str) :=
  try_except
    (let query := py "artist:" ++ artist ++ py " track:" ++ track_name in
     items <- sp_search_call query ;;
     match items with
     | _ :: _ =>
         item0 <- index items 0 ;;
         url <- item (Spotify.external_urls item0) (py "spotify") ;;
         ret (Some url)
     | [] => ret None
     end)
    (fun e =>
       print (py "Error searching Spotify: " ++ exn_str e) ;;
       ret None).

(** [content.split("track/")[1].split("?")[0]], the expression both
    branches of [on_message] extract the track id with. *)
Definition track_id_of (content : str) : M W str :=
  after <- index (split (py "track/") content) 1 ;;
  index (split (py "?") after) 0.

(** [on_message(message)]. *)
Definition on_message (message : Message) : M W unit :=
  if author message =? bot_user svc then ret tt
  else
    let content := strip (content message) in
    (if contains spotify_anchor content then
       try_except
         (track_id <- track_id_of content ;;
          track_info <- sp_track_call track_id ;;
          artist0 <- index (Spotify.artists track_info) 0 ;;
          let artist_name := Spotify.name artist0 in
          let track_title := Spotify.track_name track_info in
          print (py "Detected Spotify: " ++ artist_name ++ py " - " ++
                 track_title) ;;
          tidal_link <- get_tidal_url artist_name track_title ;;
          if truthy tidal_link then
            reply message (tidal_conversion (format tidal_link))
          else print (py "Match not found on TIDAL."))
         (fun e => print (py "Error processing Spotify link: " ++ exn_str e))
     else if contains tidal_anchor content then
       try_except
         (track_id <- track_id_of content ;;
          tidal_track <- tidal_track_call track_id ;;
          artist <- attribute (Tidal.artist tidal_track) (py "name") ;;
          let artist_name := Tidal.name artist in
          let track_title := Tidal.track_name tidal_track in
          print (py "Detected TIDAL: " ++ artist_name ++ py " - " ++
                 track_title) ;;
          spotify_link <- get_spotify_url artist_name track_title ;;
          if truthy spotify_link then
            reply message (spotify_conversion (format spotify_link))
          else print (py "Match not found on Spotify."))
         (fun e => print (py "Error processing TIDAL link: " ++ exn_str e))
     else ret tt) ;;
    process_commands message.

End Bot.

(** ** Reading a run *)

(** The replies sent, the requests made to the music services, and the
    lines printed, each in order. *)
Definition replies (evs : list event) : list str :=
  omap (fun e => match e with Reply text => Some text | _ => None end) evs.

Definition calls (evs : list event) : list call :=
  omap (fun e => match e with Call c => Some c | _ => None end) evs.

Definition printed (evs : list event) : list str :=
  omap (fun e => match e with Print line => Some line | _ => None end) evs.



(** The requests of the Spotify-link branch of [on_message] (Spotify
    metadata, then a TIDAL search) and those of the TIDAL-link branch. *)
Definition in_spotify_branch (c : call) : bool :=
  match c with
  | SpTrack _ | TidalSearch _ => true
  | TidalTrack _ | SpSearch _ => false
  end.

Definition in_tidal_branch (c : call) : bool :=
  match c with
  | TidalTrack _ | SpSearch _ => true
  | SpTrack _ | TidalSearch _ => false
  end.

(** The services answer by the request alone: the state of the world plays
    no part in any answer. *)
Record Stateless {W : Type} (svc : Services W) : Prop := {
  sp_track_stateless :
    forall x w w', fst (sp_track svc x w) = fst (sp_track svc x w');
  sp_search_stateless :
    forall x w w', fst (sp_search svc x w) = fst (sp_search svc x w');
  tidal_track_stateless :
    forall x w w',
      fst (tidal_session_track svc x w) = fst (tidal_session_track svc x w');
  tidal_search_stateless :
    forall x w w',
      fst (tidal_session_search svc x w) = fst (tidal_session_search svc x w');
  reply_stateless :
    forall m x w w',
      fst (message_reply svc m x w) = fst (message_reply svc m x w');
  process_commands_stateless :
    forall m w w',
      fst (bot_process_commands svc m w) = fst (bot_process_commands svc m w')
}.


(** ** The match selection of the specification, for comparison

    The specification's Match Scorer in its own words: "Select the
    highest-scoring candidate if its score clears a fixed acceptance
    threshold; otherwise return NoMatch", ties going to the first candidate
    in the provider's order.  The score itself is left open by the
    specification, so it is an argument here.  Nothing in [bot.py] computes
    it: this definition is only what the code's choice is compared with. *)
Module SpecScorer.
Fixpoint best {C : Type} (score : C -> Z) (candidates : list C) : option C :=
  match candidates with
  | [] => None
  | c :: rest =>
      match best score rest with
      | Some b => if (score c <? score b)%Z then Some b else Some c
      | None => Some c
      end
  end.

Definition select {C : Type} (score : C -> Z) (threshold : Z)
    (candidates : list C) : option C :=
  match best score candidates with
  | Some b => if (threshold <=? score b)%Z then Some b else None
  | None => None
  end.
End SpecScorer.

(** ** Worlds to run the bot in *)

Module Worlds.

(** A world without state: every request is answered by a fixed function
    of the request, and the chat platform accepts everything. *)
Definition answering
    (track : str -> answer Spotify.Track)
    (items : str -> answer (list Spotify.Track))
    (tidal_track : str -> answer Tidal.Track)
    (tidal_tracks : str -> answer (list Tidal.Track))
    (me : N) : Services unit :=
  {| sp_track x w := (track x, w);
     sp_search x w := (items x, w);
     tidal_session_track x w := (tidal_track x, w);
     tidal_session_search x w := (tidal_tracks x, w);
     message_reply _ _ w := (Returns tt, w);
     bot_process_commands _ w := (Returns tt, w);
     bot_user := me |}.

(** A world whose TIDAL search times out on its first [failures] requests
    and finds [found] from then on; the state counts the searches made.
    Spotify knows one track, [track]. *)
Definition recovering (failures : nat) (track : Spotify.Track)
    (found : list Tidal.Track) (me : N) : Services nat :=
  {| sp_track _ n := (Returns track, n);
     sp_search _ n := (Returns [], n);
     tidal_session_track _ n := (Fails (py "404"), n);
     tidal_session_search _ n :=
       (if (n <? failures)%nat then Fails (py "timed out")
        else Returns found, S n);
     message_reply _ _ n := (Returns tt, n);
     bot_process_commands _ n := (Returns tt, n);
     bot_user := me |}.

(** A world in which the chat platform refuses everything. *)
Definition chat_down (track : Spotify.Track) (found : list Tidal.Track)
    (me : N) : Services unit :=
  {| sp_track _ w := (Returns track, w);
     sp_search _ w := (Returns [], w);
     tidal_session_track _ w := (Fails (py "404"), w);
     tidal_session_search _ w := (Returns found, w);
     message_reply _ _ w := (Fails (py "403 Forbidden"), w);
     bot_process_commands _ w := (Fails (py "503"), w);
     bot_user := me |}.

Definition one_more_time : Spotify.Track :=
  {| Spotify.artists := [ {| Spotify.name := py "Daft Punk" |} ];
     Spotify.track_name := py "One More Time";
     Spotify.external_urls :=
       {[ py "spotify" := py "https://open.spotify.com/track/0DiWol3AO6WpXZgp0goxAV" ]} |}.

Definition one_more_time_tidal : Tidal.Track :=
  {| Tidal.id := 1260509;
     Tidal.track_name := py "One More Time";
     Tidal.artist := Some {| Tidal.name := py "Daft Punk" |} |}.

Definition baby_shark : Tidal.Track :=
  {| Tidal.id := 42;
     Tidal.track_name := py "Baby Shark";
     Tidal.artist := Some {| Tidal.name := py "Pinkfong" |} |}.

(** The bot's own user id in the examples. *)
Definition me : N := 7.

(** Both catalogues hold "One More Time". *)
Definition both_know : Services unit :=
  answering (fun _ => Returns one_more_time)
            (fun _ => Returns [one_more_time])
            (fun _ => Returns one_more_time_tidal)
            (fun _ => Returns [one_more_time_tidal]) me.

(** TIDAL's search finds nothing, Spotify's neither. *)
Definition nothing_found : Services unit :=
  answering (fun _ => Returns one_more_time)
            (fun _ => Returns [])
            (fun _ => Returns one_more_time_tidal)
            (fun _ => Returns []) me.

(** TIDAL's search answers "One More Time" with an unrelated track. *)
Definition unrelated_first : Services unit :=
  answering (fun _ => Returns one_more_time)
            (fun _ => Returns [])
            (fun _ => Returns one_more_time_tidal)
            (fun _ => Returns [baby_shark]) me.

(** Spotify knows the track "abc123" and no other id; TIDAL's search
    finds "One More Time". *)
Definition one_track : Services unit :=
  answering (fun track_id =>
               if decide (track_id = py "abc123") then Returns one_more_time
               else Fails (py "404 Not Found"))
            (fun _ => Returns [])
            (fun _ => Fails (py "404 Not Found"))
            (fun _ => Returns [one_more_time_tidal]) me.

Definition spotify_link : Message :=
  {| author := 1;
     content := py "https://open.spotify.com/track/abc123?si=xyz" |}.

Definition tidal_link : Message :=
  {| author := 1;
     content := py "https://tidal.com/browse/track/1260509?u" |}.

Definition both_links : Message :=
  {| author := 1;
     content := py "https://tidal.com/browse/track/1260509 https://open.spotify.com/track/abc123?si=xyz" |}.

Definition small_talk : Message :=
  {| author := 1; content := py "good morning" |}.

Definition own_message : Message :=
  {| author := me;
     content := py "https://open.spotify.com/track/abc123?si=xyz" |}.

(** A link with a trailing query string, after text that has "track/" in
    it. *)
Definition link_after_text : Message :=
  {| author := 1;
     content := py "new track/video: https://open.spotify.com/track/abc123?si=xyz" |}.

End Worlds.

(** ** Start-up *)

(** The characters "0" to "9". *)
Definition is_digit (c : N) : bool := (48 <=? c) && (c <=? 57).

(** The link [get_tidal_url] builds for the track with id [n]. *)
Definition tidal_track_url (n : N) : str :=
  py "https://tidal.com/browse/track/" ++ str_of_int n.

(** What [on_ready] needs from outside: [bot.user.name], and
    [tidal_session.login_oauth_simple()].  The login prints through
    [print] itself (the address to visit), so its answer comes with the
    lines it printed; like every external call it may change the world. *)
Record Startup (W : Type) : Type := {
  bot_user_name : str;
  tidal_session_login_oauth_simple : W -> list str * answer unit * W
}.
Arguments bot_user_name {W} _.
Arguments tidal_session_login_oauth_simple {W} _ _.

Section Ready.
Context {W : Type} (st : Startup W).

(** [tidal_session.login_oauth_simple()]: the lines the library prints are
    events of the run; a failure is raised as a provider exception. *)
Definition login_oauth_simple_call : M W unit :=
  fun w =>
    match tidal_session_login_oauth_simple st w with
    | (lines, Returns x, w') => Run (Normal x) w' (map Print lines)
    | (lines, Fails msg, w') =>
        Run (Raise (ProviderError msg)) w' (map Print lines)
    end.

(** [on_ready()]. *)
Definition on_ready : M W unit :=
  print (py "Logged in as " ++ bot_user_name st) ;;
  try_except
    (print (py "Authenticating with TIDAL... check your terminal.") ;;
     login_oauth_simple_call ;;
     print (py "TIDAL Login Successful."))
    (fun e => print (py "TIDAL Login failed: " ++ exn_str e)).

End Ready.

(** Start-ups to run [on_ready] in; the state counts the logins tried. *)
Module Startups.

Definition visit : str :=
  py "Visit https://link.tidal.com/ABCDE to log in, the code will expire in 300 seconds".

Definition login_works : Startup nat :=
  {| bot_user_name := py "link-bot";
     tidal_session_login_oauth_simple n := ([visit], Returns tt, S n) |}.

Definition login_expires : Startup nat :=
  {| bot_user_name := py "link-bot";
     tidal_session_login_oauth_simple n :=
       ([visit], Fails (py "Login timed out"), S n) |}.

End Startups.

(** More worlds and messages for the examples. *)
Module MoreWorlds.

(** A Spotify track with no artist and one with no link under "spotify",
    a TIDAL track with no artist, and a Spotify track whose link is the
    empty text. *)
Definition no_artists : Spotify.Track :=
  {| Spotify.artists := [];
     Spotify.track_name := py "One More Time";
     Spotify.external_urls := ∅ |}.

Definition empty_link : Spotify.Track :=
  {| Spotify.artists := [ {| Spotify.name := py "Daft Punk" |} ];
     Spotify.track_name := py "One More Time";
     Spotify.external_urls := {[ py "spotify" := [] ]} |}.

Definition no_artist_tidal : Tidal.Track :=
  {| Tidal.id := 1260509;
     Tidal.track_name := py "One More Time";
     Tidal.artist := None |}.

(** Spotify answers every lookup with a track that has no artist and every
    search with a track that has no link; TIDAL answers every lookup with a
    track that has no artist. *)
Definition bare_answers : Services unit :=
  Worlds.answering (fun _ => Returns no_artists)
                   (fun _ => Returns [no_artists])
                   (fun _ => Returns no_artist_tidal)
                   (fun _ => Returns []) Worlds.me.

(** Spotify's search finds a track whose link is empty. *)
Definition empty_link_found : Services unit :=
  Worlds.answering (fun _ => Returns Worlds.one_more_time)
                   (fun _ => Returns [empty_link])
                   (fun _ => Returns Worlds.one_more_time_tidal)
                   (fun _ => Returns []) Worlds.me.

(** The link alone, and the link with words after it. *)
Definition link_alone : Message :=
  {| author := 1; content := py "https://open.spotify.com/track/abc123" |}.

Definition link_then_words : Message :=
  {| author := 1;
     content := py "https://open.spotify.com/track/abc123 great song" |}.

(** The link of [Worlds.spotify_link] with blanks before it and a line
    feed after it. *)
Definition padded_link : Message :=
  {| author := 1;
     content := py "  " ++ content Worlds.spotify_link ++ [10] |}.

(** A link as [get_tidal_url] builds it, pasted as a message. *)
Definition pasted_tidal_link : Message :=
  {| author := 1; content := tidal_track_url 1260509 |}.

End MoreWorlds.

(** * Properties *)

Example split_query :
  split (py "?") (py "abc123?si=xyz&x=1?y") = [py "abc123"; py "si=xyz&x=1"; py "y"].
Proof. reflexivity. Qed.

Example split_track :
  split (py "track/") (py "https://open.spotify.com/track/abc123?si=xyz")
  = [py "https://open.spotify.com/"; py "abc123?si=xyz"].
Proof. reflexivity. Qed.

Example split_absent : split (py "track/") (py "hello") = [py "hello"].
Proof. reflexivity. Qed.

Example split_adjacent : split (py "aa") (py "aaaaa") = [[]; []; py "a"].
Proof. reflexivity. Qed.

Example strip_both : strip (py "  a b	 ") = py "a b".
Proof. reflexivity. Qed.

Example str_of_int_42 : str_of_int 42 = py "42".
Proof. reflexivity. Qed.

Example str_of_int_0 : str_of_int 0 = py "0".
Proof. reflexivity. Qed.

Example on_message_spotify_link :
  on_message Worlds.both_know Worlds.spotify_link tt
  = Run (Normal tt) tt
      [ Call (SpTrack (py "abc123"));
        Print (py "Detected Spotify: Daft Punk - One More Time");
        Call (TidalSearch (py "Daft Punk - One More Time"));
        Reply (tidal_conversion (py "https://tidal.com/browse/track/1260509"));
        ProcessCommands ].
Proof. vm_compute. reflexivity. Qed.

Example on_message_tidal_link :
  on_message Worlds.both_know Worlds.tidal_link tt
  = Run (Normal tt) tt
      [ Call (TidalTrack (py "1260509"));
        Print (py "Detected TIDAL: Daft Punk - One More Time");
        Call (SpSearch (py "artist:Daft Punk track:One More Time"));
        Reply (spotify_conversion
                 (py "https://open.spotify.com/track/0DiWol3AO6WpXZgp0goxAV"));
        ProcessCommands ].
Proof. vm_compute. reflexivity. Qed.

(** ** Substrings, [split] and [strip] *)

Section StrFacts.
Implicit Types p s sep a b : str.

Lemma startswith_spec p s :
  startswith p s = true <-> exists b, s = p ++ b.
Proof.
  revert s; induction p as [|x p IH]; intros [|y s]; simpl.
  - split; [exists []; reflexivity | reflexivity].
  - split; [eexists; reflexivity | reflexivity].
  - split; [discriminate | intros [b Hb]; discriminate].
  - rewrite andb_true_iff, N.eqb_eq, IH. split.
    + intros [-> [b ->]]. eexists; reflexivity.
    + intros [b Hb]. injection Hb as -> ->. eauto.
Qed.

Lemma startswith_nil_r p : p <> [] -> startswith p [] = false.
Proof. destruct p; [congruence | reflexivity]. Qed.

Lemma contains_cons p c s :
  contains p (c :: s) = startswith p (c :: s) || contains p s.
Proof. reflexivity. Qed.

Lemma contains_nil_r p : p <> [] -> contains p [] = false.
Proof. intros Hp. simpl. rewrite startswith_nil_r by assumption. reflexivity. Qed.

Lemma contains_spec p s :
  contains p s = true <-> exists a b, s = a ++ p ++ b.
Proof.
  induction s as [|c s IH].
  - simpl. rewrite orb_false_r, startswith_spec. split.
    + intros [b ->]. exists [], b. reflexivity.
    + intros (a & b & H). symmetry in H.
      apply app_eq_nil in H as [-> H]. exists b. symmetry. exact H.
  - rewrite contains_cons, orb_true_iff, startswith_spec, IH. split.
    + intros [[b ->] | (a & b & ->)].
      * exists [], b. reflexivity.
      * exists (c :: a), b. reflexivity.
    + intros ([|c' a] & b & H).
      * left. exists b. exact H.
      * right. injection H as -> ->. eauto.
Qed.

(** What contains a text contains every end of it. *)
Lemma contains_suffix p1 p2 s :
  contains (p1 ++ p2) s = true -> contains p2 s = true.
Proof.
  rewrite !contains_spec. intros (a & b & ->).
  exists (a ++ p1), b. rewrite <- !app_assoc. reflexivity.
Qed.

Lemma partition_first_spec sep s a b :
  partition_first sep s = Some (a, b) -> s = a ++ sep ++ b.
Proof.
  revert a; induction s as [|c s IH]; intros a; simpl.
  - destruct (startswith sep []) eqn:E; [|discriminate].
    intros [= <- <-]. apply startswith_spec in E as [b' E].
    symmetry in E. apply app_eq_nil in E as [-> ->]. reflexivity.
  - destruct (startswith sep (c :: s)) eqn:E.
    + intros [= <- <-]. apply startswith_spec in E as [b' E].
      rewrite E at 2. rewrite drop_app_length. exact E.
    + destruct (partition_first sep s) as [[a' b']|]; [|discriminate].
      intros [= <- <-]. simpl. f_equal. apply IH. reflexivity.
Qed.

Lemma partition_first_contains sep s :
  contains sep s = true -> is_Some (partition_first sep s).
Proof.
  induction s as [|c s IH]; simpl.
  - rewrite orb_false_r. intros ->. eauto.
  - destruct (startswith sep (c :: s)); [eauto|]. simpl.
    intros H. destruct (IH H) as [[a b] ->]. eauto.
Qed.

Lemma partition_first_absent sep s :
  contains sep s = false -> partition_first sep s = None.
Proof.
  induction s as [|c s IH]; simpl.
  - rewrite orb_false_r. intros ->. reflexivity.
  - intros [-> H]%orb_false_iff. rewrite (IH H). reflexivity.
Qed.

(** The text before the first occurrence of [sep] has no [sep] in it. *)
Lemma partition_first_before sep s a b :
  sep <> [] -> partition_first sep s = Some (a, b) -> contains sep a = false.
Proof.
  intros Hsep. revert a; induction s as [|c s IH]; intros a; simpl.
  - destruct (startswith sep []); [|discriminate].
    intros [= <- <-]. apply contains_nil_r, Hsep.
  - destruct (startswith sep (c :: s)) eqn:E.
    + intros [= <- <-]. apply contains_nil_r, Hsep.
    + destruct (partition_first sep s) as [[a' b']|] eqn:P; [|discriminate].
      intros [= <- <-]. rewrite contains_cons, (IH a' eq_refl), orb_false_r.
      apply not_true_is_false. intros [t Ht]%startswith_spec.
      apply not_true_iff_false in E. apply E, startswith_spec.
      apply partition_first_spec in P.
      exists (t ++ sep ++ b'). rewrite P.
      change (c :: a' ++ sep ++ b') with ((c :: a') ++ sep ++ b').
      rewrite Ht, <- app_assoc. reflexivity.
Qed.

Lemma partition_first_shorter sep s a b :
  sep <> [] -> partition_first sep s = Some (a, b) ->
  (length b < length s)%nat.
Proof.
  intros Hsep ->%partition_first_spec. rewrite !length_app.
  destruct sep; [congruence | simpl; lia].
Qed.

(** [split] has fuel enough: more changes nothing. *)
Lemma split_fuel_enough sep : sep <> [] ->
  forall n s, (length s < n)%nat -> split_fuel n sep s = split sep s.
Proof.
  intros Hsep n. unfold split.
  induction n as [n IH] using lt_wf_ind. intros s Hn.
  destruct n as [|n]; [lia|]. simpl.
  destruct (partition_first sep s) as [[a b]|] eqn:P; [|reflexivity].
  f_equal. pose proof (partition_first_shorter _ _ _ _ Hsep P).
  rewrite (IH n) by lia. symmetry. apply IH; lia.
Qed.

(** The equation of [s.split(sep)]. *)
Lemma split_eq sep s : sep <> [] ->
  split sep s =
    match partition_first sep s with
    | None => [s]
    | Some (a, b) => a :: split sep b
    end.
Proof.
  intros Hsep. unfold split at 1. simpl.
  destruct (partition_first sep s) as [[a b]|] eqn:P; [|reflexivity].
  f_equal. apply split_fuel_enough; [assumption|].
  eapply partition_first_shorter; eassumption.
Qed.

(** [s.split(sep)[0]] exists, and [sep] does not occur in it. *)
Lemma split_head sep s : sep <> [] ->
  exists h, split sep s !! 0%nat = Some h /\ contains sep h = false.
Proof.
  intros Hsep. rewrite split_eq by assumption.
  destruct (partition_first sep s) as [[a b]|] eqn:P; simpl.
  - exists a. split; [reflexivity|].
    eapply partition_first_before; eassumption.
  - exists s. split; [reflexivity|].
    destruct (contains sep s) eqn:C; [|reflexivity].
    apply partition_first_contains in C as [? C]. congruence.
Qed.

(** [s.split(sep)[1]] exists where [sep] occurs in [s]. *)
Lemma split_second sep s : sep <> [] -> contains sep s = true ->
  is_Some (split sep s !! 1%nat).
Proof.
  intros Hsep [[a b] P]%partition_first_contains.
  rewrite split_eq, P by assumption. simpl.
  destruct (split_head sep b Hsep) as (h & -> & _). eauto.
Qed.

Lemma split_second_absent sep s : sep <> [] -> contains sep s = false ->
  split sep s !! 1%nat = None.
Proof.
  intros Hsep P%partition_first_absent.
  rewrite split_eq, P by assumption. reflexivity.
Qed.

End StrFacts.

(** [strip] takes white space off both ends, so it neither hides nor
    creates an occurrence of a text that begins and ends with other
    characters. *)
Section StripFacts.
Implicit Types p s : str.

Lemma contains_lstrip p x s :
  head p = Some x -> is_space x = false ->
  contains p (lstrip s) = contains p s.
Proof.
  intros Hx Hsp. destruct p as [|x' p]; [discriminate|].
  injection Hx as ->.
  induction s as [|c s IH]; [reflexivity|].
  cbn [lstrip]. destruct (is_space c) eqn:Hc; [|reflexivity].
  rewrite IH, contains_cons. cbn [startswith].
  destruct (N.eqb_spec x c) as [->|_]; [congruence | reflexivity].
Qed.

Lemma startswith_cons x p c s :
  startswith (x :: p) (c :: s) = (x =? c) && startswith p s.
Proof. reflexivity. Qed.

Lemma startswith_rstrip s : forall p y,
  last p = Some y -> is_space y = false ->
  startswith p (rstrip s) = startswith p s.
Proof.
  induction s as [|c s IH]; intros p y Hy Hsp; [reflexivity|].
  destruct p as [|x p]; [discriminate|].
  assert (Htl : p <> [] -> startswith p (rstrip s) = startswith p s).
  { intros Hp. apply (IH p y); [|assumption].
    destruct p; [congruence | exact Hy]. }
  cbn [rstrip]. destruct (rstrip s) as [|r rs] eqn:R.
  - destruct p as [|x' p].
    + injection Hy as ->. destruct (is_space c) eqn:Hc; [|reflexivity].
      cbn [startswith].
      destruct (N.eqb_spec y c) as [->|_]; [congruence | reflexivity].
    + destruct (is_space c); rewrite !startswith_cons;
        rewrite <- (Htl ltac:(discriminate));
        rewrite ?(startswith_nil_r (x' :: p)) by discriminate;
        rewrite ?andb_false_r; reflexivity.
  - destruct p as [|x' p]; [reflexivity|].
    rewrite !startswith_cons, <- (Htl ltac:(discriminate)). reflexivity.
Qed.

Lemma contains_rstrip p y s :
  last p = Some y -> is_space y = false ->
  contains p (rstrip s) = contains p s.
Proof.
  intros Hy Hsp.
  assert (Hp : p <> []) by (destruct p; [discriminate | congruence]).
  induction s as [|c s IH]; [reflexivity|].
  rewrite contains_cons, <- IH, <- (startswith_rstrip (c :: s) p y Hy Hsp).
  cbn [rstrip]. destruct (rstrip s) as [|r rs].
  - rewrite (contains_nil_r p Hp), orb_false_r.
    destruct (is_space c).
    + rewrite (contains_nil_r p Hp), (startswith_nil_r p Hp). reflexivity.
    + rewrite contains_cons, (contains_nil_r p Hp), orb_false_r. reflexivity.
  - rewrite contains_cons. reflexivity.
Qed.

Lemma contains_strip p x y s :
  head p = Some x -> is_space x = false ->
  last p = Some y -> is_space y = false ->
  contains p (strip s) = contains p s.
Proof.
  intros Hx Hxs Hy Hys. unfold strip.
  rewrite (contains_lstrip p x) by assumption.
  apply (contains_rstrip p y); assumption.
Qed.

(** The two link anchors and the id separator are such texts. *)
Lemma contains_strip_spotify s :
  contains (py "open.spotify.com/track/") (strip s)
  = contains (py "open.spotify.com/track/") s.
Proof. apply (contains_strip _ 111 47); reflexivity. Qed.

Lemma contains_strip_tidal s :
  contains (py "tidal.com/browse/track/") (strip s)
  = contains (py "tidal.com/browse/track/") s.
Proof. apply (contains_strip _ 116 47); reflexivity. Qed.

End StripFacts.

(** ** Running the handlers *)

Arguments py : simpl never.
Arguments str_of_int : simpl never.
Arguments split : simpl never.
Arguments strip : simpl never.
Arguments contains : simpl never.

Lemma bind_eq {W A B : Type} (m : M W A) (k : A -> M W B) (w : W) :
  bind m k w =
    match m w with
    | Run (Normal a) w1 evs1 =>
        match k a w1 with
        | Run r w2 evs2 => Run r w2 (evs1 ++ evs2)
        end
    | Run (Raise e) w1 evs1 => Run (Raise e) w1 evs1
    end.
Proof. reflexivity. Qed.

Lemma try_except_eq {W A : Type} (body : M W A) (handler : exn -> M W A) (w : W) :
  try_except body handler w =
    match body w with
    | Run (Normal a) w1 evs1 => Run (Normal a) w1 evs1
    | Run (Raise e) w1 evs1 =>
        match handler e w1 with
        | Run r w2 evs2 => Run r w2 (evs1 ++ evs2)
        end
    end.
Proof. reflexivity. Qed.

(** The innermost scrutinee that stands in the way of [x]. *)
Ltac split_innermost x :=
  lazymatch x with
  | context [match ?y with _ => _ end] => split_innermost y
  | _ => destruct x eqn:?
  end.

(** One step of a handler: open the sequencing at the head, let the
    primitive there run, and split on what the world answers. *)
Ltac run_step :=
  first
    [ progress (rewrite ?bind_eq, ?try_except_eq)
    | progress
        (unfold ret, raise, external, index, item, attribute, print, emit,
           sp_track_call, sp_search_call, tidal_track_call, tidal_search_call,
           reply, process_commands)
    | progress (cbn beta iota zeta delta [result final events])
    | match goal with
      | |- context [match ?x with _ => _ end] => split_innermost x
      end; simplify_eq ].

Ltac run_bot := repeat run_step.

Lemma sep_track_nonempty : py "track/" <> [].
Proof. discriminate. Qed.

Lemma sep_query_nonempty : py "?" <> [].
Proof. discriminate. Qed.

Section Helpers.
Context {W : Type} (svc : Services W).

(** Extracting the id is pure: no event, the world untouched. *)
Lemma track_id_of_pure content (w : W) :
  exists r, track_id_of content w = Run r w [].
Proof. unfold track_id_of. run_bot; eauto. Qed.

(** Where "track/" occurs, an id is extracted, and it has no "?" in it. *)
Lemma track_id_of_found content (w : W) :
  contains (py "track/") content = true ->
  exists track_id,
    track_id_of content w = Run (Normal track_id) w [] /\
    contains (py "?") track_id = false.
Proof.
  intros [after Hafter]%(split_second _ _ sep_track_nonempty).
  destruct (split_head (py "?") after sep_query_nonempty) as (h & Hh & Hq).
  exists h. split; [|exact Hq].
  unfold track_id_of, index. rewrite Hafter, bind_eq. cbn.
  rewrite Hh. reflexivity.
Qed.

(** [get_tidal_url], path by path. *)
Lemma get_tidal_url_run artist track_name w :
  get_tidal_url svc artist track_name w =
    let query := artist ++ py " - " ++ track_name in
    match tidal_session_search svc query w with
    | (Returns (track :: _), w') =>
        Run (Normal (Some (py "https://tidal.com/browse/track/" ++
                           str_of_int (Tidal.id track))))
            w' [Call (TidalSearch query)]
    | (Returns [], w') => Run (Normal None) w' [Call (TidalSearch query)]
    | (Fails msg, w') =>
        Run (Normal None) w'
            [Call (TidalSearch query);
             Print (py "Error searching TIDAL: " ++ msg)]
    end.
Proof. unfold get_tidal_url. run_bot; simplify_eq/=; reflexivity. Qed.

(** [get_spotify_url], path by path. *)
Lemma get_spotify_url_run artist track_name w :
  get_spotify_url svc artist track_name w =
    let query := py "artist:" ++ artist ++ py " track:" ++ track_name in
    match sp_search svc query w with
    | (Returns (item0 :: _), w') =>
        match Spotify.external_urls item0 !! py "spotify" with
        | Some url => Run (Normal (Some url)) w' [Call (SpSearch query)]
        | None =>
            Run (Normal None) w'
                [Call (SpSearch query);
                 Print (py "Error searching Spotify: 'spotify'")]
        end
    | (Returns [], w') => Run (Normal None) w' [Call (SpSearch query)]
    | (Fails msg, w') =>
        Run (Normal None) w'
            [Call (SpSearch query);
             Print (py "Error searching Spotify: " ++ msg)]
    end.
Proof. unfold get_spotify_url. run_bot; simplify_eq/=; reflexivity. Qed.

End Helpers.

(** A step of [on_message]: as [run_step], with the helpers run by their
    equations. *)
Ltac handler_step :=
  first
    [ match goal with
      | |- context [track_id_of ?c ?w] =>
          let r := fresh "extracted" in
          destruct (track_id_of_pure c w) as [r ->]
      end
    | progress (rewrite ?get_tidal_url_run, ?get_spotify_url_run)
    | run_step ].

Ltac run_handler := repeat handler_step.


(** ** The search helpers *)

Section SearchHelpers.
Context {W : Type} (svc : Services W).

(** C1, as amended: the helpers take the first track of the provider's
    result list whenever the list is not empty, whatever the rest of the
    list and however far the track is from the artist and title asked for;
    no score and no threshold is involved.  [get_tidal_url] returns the
    TIDAL link built from that track's id, [get_spotify_url] the link the
    track carries under the key "spotify".  With an empty result list both
    return [None]. *)
Theorem get_url_takes_first_result artist track_name (w : W) :
  (forall track rest w',
      tidal_session_search svc (artist ++ py " - " ++ track_name) w
      = (Returns (track :: rest), w') ->
      result (get_tidal_url svc artist track_name w)
      = Normal (Some (py "https://tidal.com/browse/track/" ++
                      str_of_int (Tidal.id track)))) /\
  (forall item0 rest w' url,
      sp_search svc (py "artist:" ++ artist ++ py " track:" ++ track_name) w
      = (Returns (item0 :: rest), w') ->
      Spotify.external_urls item0 !! py "spotify" = Some url ->
      result (get_spotify_url svc artist track_name w) = Normal (Some url)) /\
  (forall w',
      tidal_session_search svc (artist ++ py " - " ++ track_name) w
      = (Returns [], w') ->
      result (get_tidal_url svc artist track_name w) = Normal None) /\
  (forall w',
      sp_search svc (py "artist:" ++ artist ++ py " track:" ++ track_name) w
      = (Returns [], w') ->
      result (get_spotify_url svc artist track_name w) = Normal None).
Proof.
  rewrite get_tidal_url_run, get_spotify_url_run. cbn zeta.
  split; [|split; [|split]].
  - intros track rest w' ->. reflexivity.
  - intros item0 rest w' url -> ->. reflexivity.
  - intros w' ->. reflexivity.
  - intros w' ->. reflexivity.
Qed.

(** C6, as amended: there is no retry.  Each helper sends its search
    request exactly once, whatever the answer; when that one attempt fails
    the helper prints the error and returns [None], leaving the world as the
    failed attempt left it.  A message causes two requests at most, a lookup
    and a search. *)
Theorem get_url_single_attempt artist track_name (m : Message) (w : W) :
  calls (events (get_tidal_url svc artist track_name w))
  = [TidalSearch (artist ++ py " - " ++ track_name)] /\
  calls (events (get_spotify_url svc artist track_name w))
  = [SpSearch (py "artist:" ++ artist ++ py " track:" ++ track_name)] /\
  (forall msg w',
      tidal_session_search svc (artist ++ py " - " ++ track_name) w
      = (Fails msg, w') ->
      get_tidal_url svc artist track_name w
      = Run (Normal None) w'
          [Call (TidalSearch (artist ++ py " - " ++ track_name));
           Print (py "Error searching TIDAL: " ++ msg)]) /\
  (forall msg w',
      sp_search svc (py "artist:" ++ artist ++ py " track:" ++ track_name) w
      = (Fails msg, w') ->
      get_spotify_url svc artist track_name w
      = Run (Normal None) w'
          [Call (SpSearch (py "artist:" ++ artist ++ py " track:" ++ track_name));
           Print (py "Error searching Spotify: " ++ msg)]) /\
  (length (calls (events (on_message svc m w))) <= 2)%nat.
Proof.
  rewrite get_tidal_url_run, get_spotify_url_run. cbn zeta.
  repeat split.
  - repeat case_match; reflexivity.
  - repeat case_match; reflexivity.
  - intros msg w' ->. reflexivity.
  - intros msg w' ->. reflexivity.
  - unfold on_message. run_handler; cbn; lia.
Qed.

(** C10: the helpers are total.  In every world and for every artist and
    title they end normally, with a link or with [None]; no exception leaves
    them.  They end with [None] when the provider call raises and when the
    provider's result list is empty. *)
Theorem get_url_total artist track_name (w : W) :
  (exists link : option str,
      result (get_tidal_url svc artist track_name w) = Normal link /\
      (forall msg,
          fst (tidal_session_search svc (artist ++ py " - " ++ track_name) w)
          = Fails msg -> link = None) /\
      (fst (tidal_session_search svc (artist ++ py " - " ++ track_name) w)
       = Returns [] -> link = None)) /\
  (exists link : option str,
      result (get_spotify_url svc artist track_name w) = Normal link /\
      (forall msg,
          fst (sp_search svc
                 (py "artist:" ++ artist ++ py " track:" ++ track_name) w)
          = Fails msg -> link = None) /\
      (fst (sp_search svc
              (py "artist:" ++ artist ++ py " track:" ++ track_name) w)
       = Returns [] -> link = None)).
Proof.
  rewrite get_tidal_url_run, get_spotify_url_run. cbn zeta.
  split.
  - destruct (tidal_session_search svc _ w) as [[[|t l]|msg] w']; cbn;
      eexists; (split; [reflexivity|]); split; intros; congruence.
  - destruct (sp_search svc _ w) as [[[|t l]|msg] w']; cbn;
      [| destruct (Spotify.external_urls t !! py "spotify") |];
      eexists; (split; [reflexivity|]); split; intros; congruence.
Qed.

End SearchHelpers.

(** C1: "One More Time" by Daft Punk is asked for, TIDAL's search answers
    with "Baby Shark" alone, and [get_tidal_url] returns the link of "Baby
    Shark"; under every score and threshold that reject this candidate the
    specification's selection is no match. *)
Lemma get_tidal_url_returns_unrelated_track :
  result (get_tidal_url Worlds.unrelated_first
            (py "Daft Punk") (py "One More Time") tt)
  = Normal (Some (py "https://tidal.com/browse/track/42")) /\
  (forall (score : Tidal.Track -> Z) (threshold : Z),
      (score Worlds.baby_shark < threshold)%Z ->
      SpecScorer.select score threshold [Worlds.baby_shark] = None).
Proof.
  split; [vm_compute; reflexivity|].
  intros score threshold H. unfold SpecScorer.select. cbn.
  destruct (Z.leb_spec threshold (score Worlds.baby_shark)); [lia | reflexivity].
Qed.

Lemma get_url_takes_first_result_witness :
  result (get_tidal_url Worlds.unrelated_first
            (py "Daft Punk") (py "One More Time") tt)
  = Normal (Some (py "https://tidal.com/browse/track/" ++ str_of_int 42)) /\
  result (get_spotify_url Worlds.both_know
            (py "Daft Punk") (py "One More Time") tt)
  = Normal (Some (py "https://open.spotify.com/track/0DiWol3AO6WpXZgp0goxAV")) /\
  result (get_tidal_url Worlds.nothing_found
            (py "Daft Punk") (py "One More Time") tt)
  = Normal None /\
  result (get_spotify_url Worlds.nothing_found
            (py "Daft Punk") (py "One More Time") tt)
  = Normal None.
Proof.
  split; [|split; [|split]].
  - apply (proj1 (get_url_takes_first_result Worlds.unrelated_first
                    (py "Daft Punk") (py "One More Time") tt)
             Worlds.baby_shark [] tt).
    reflexivity.
  - apply (proj1 (proj2 (get_url_takes_first_result Worlds.both_know
                    (py "Daft Punk") (py "One More Time") tt))
             Worlds.one_more_time [] tt).
    + reflexivity.
    + vm_compute. reflexivity.
  - apply (proj1 (proj2 (proj2 (get_url_takes_first_result Worlds.nothing_found
                    (py "Daft Punk") (py "One More Time") tt))) tt).
    reflexivity.
  - apply (proj2 (proj2 (proj2 (get_url_takes_first_result Worlds.nothing_found
                    (py "Daft Punk") (py "One More Time") tt))) tt).
    reflexivity.
Defined.

(** C6: TIDAL's search times out twice and would answer the third time.
    [get_tidal_url] asks once and returns [None]; the message gets no reply,
    after a single search.  Started after the two failures the same call
    finds the track. *)
Lemma get_tidal_url_gives_up_after_one_failure :
  let svc :=
    Worlds.recovering 2 Worlds.one_more_time [Worlds.one_more_time_tidal]
      Worlds.me in
  get_tidal_url svc (py "Daft Punk") (py "One More Time") 0%nat
  = Run (Normal None) 1%nat
      [ Call (TidalSearch (py "Daft Punk - One More Time"));
        Print (py "Error searching TIDAL: timed out") ] /\
  on_message svc Worlds.spotify_link 0%nat
  = Run (Normal tt) 1%nat
      [ Call (SpTrack (py "abc123"));
        Print (py "Detected Spotify: Daft Punk - One More Time");
        Call (TidalSearch (py "Daft Punk - One More Time"));
        Print (py "Error searching TIDAL: timed out");
        Print (py "Match not found on TIDAL.");
        ProcessCommands ] /\
  result (get_tidal_url svc (py "Daft Punk") (py "One More Time") 2%nat)
  = Normal (Some (py "https://tidal.com/browse/track/1260509")).
Proof. vm_compute. repeat split. Qed.

Lemma get_url_single_attempt_witness :
  let svc :=
    Worlds.recovering 2 Worlds.one_more_time [Worlds.one_more_time_tidal]
      Worlds.me in
  get_tidal_url svc (py "Daft Punk") (py "One More Time") 0%nat
  = Run (Normal None) 1%nat
      [ Call (TidalSearch (py "Daft Punk" ++ py " - " ++ py "One More Time"));
        Print (py "Error searching TIDAL: " ++ py "timed out") ].
Proof.
  cbv zeta.
  apply (proj1 (proj2 (proj2 (get_url_single_attempt
           (Worlds.recovering 2 Worlds.one_more_time
              [Worlds.one_more_time_tidal] Worlds.me)
           (py "Daft Punk") (py "One More Time") Worlds.spotify_link
           0%nat)))).
  reflexivity.
Defined.

(** ** The message handler *)

Section Handler.
Context {W : Type} (svc : Services W).

(** C8: a message written by the bot itself ends the handler at once:
    nothing is extracted, no service is asked, nothing is printed or
    replied, the commands are not dispatched, and the world is as it was,
    whatever the text of the message. *)
Theorem on_message_ignores_own_messages (m : Message) (w : W) :
  author m = bot_user svc ->
  on_message svc m w = Run (Normal tt) w [].
Proof.
  intros H. unfold on_message. rewrite H, N.eqb_refl. reflexivity.
Qed.

(** Without an anchor in the text the handler only dispatches the
    commands. *)
Lemma on_message_no_anchor (m : Message) (w : W) :
  contains spotify_anchor (content m) = false ->
  contains tidal_anchor (content m) = false ->
  on_message svc m w
  = (if author m =? bot_user svc then Run (Normal tt) w []
     else process_commands svc m w).
Proof.
  unfold spotify_anchor, tidal_anchor. intros Hs Ht.
  unfold on_message.
  rewrite contains_strip_spotify, contains_strip_tidal, Hs, Ht.
  destruct (author m =? bot_user svc); [reflexivity|].
  run_bot; reflexivity.
Qed.

(** C7: a text in which neither link anchor occurs is no error and gets no
    reply: the handler asks no service and prints nothing; all it does is
    hand the message to the command dispatcher (and not even that for the
    bot's own message). *)
Theorem on_message_without_link (m : Message) (w : W) :
  contains spotify_anchor (content m) = false ->
  contains tidal_anchor (content m) = false ->
  on_message svc m w
  = (if author m =? bot_user svc then Run (Normal tt) w []
     else process_commands svc m w) /\
  replies (events (on_message svc m w)) = [] /\
  calls (events (on_message svc m w)) = [] /\
  printed (events (on_message svc m w)) = [].
Proof.
  intros Hs Ht. rewrite (on_message_no_anchor m w Hs Ht).
  destruct (author m =? bot_user svc); [repeat split|].
  run_bot; repeat split.
Qed.


(** C9: a message runs at most one of the two branches and gets at most
    one reply.  A message with the Spotify anchor in it runs the Spotify
    branch, also when the TIDAL anchor is in it too: Spotify is asked for
    the track first, and no request of the TIDAL branch is made. *)
Theorem on_message_one_branch (m : Message) (w : W) :
  (length (replies (events (on_message svc m w))) <= 1)%nat /\
  (List.filter in_spotify_branch (calls (events (on_message svc m w))) = [] \/
   List.filter in_tidal_branch (calls (events (on_message svc m w))) = []) /\
  (author m <> bot_user svc ->
   contains spotify_anchor (content m) = true ->
   contains tidal_anchor (content m) = true ->
   (exists track_id rest,
       events (on_message svc m w) = Call (SpTrack track_id) :: rest) /\
   List.filter in_tidal_branch (calls (events (on_message svc m w))) = []).
Proof.
  unfold spotify_anchor, tidal_anchor. split; [|split].
  - unfold on_message. run_handler; cbn; lia.
  - unfold on_message. run_handler; cbn; auto.
  - intros Hme Hs _. unfold on_message.
    apply N.eqb_neq in Hme. rewrite Hme, contains_strip_spotify, Hs.
    destruct (track_id_of_found (strip (content m)) w) as (track_id & Hid & _).
    { apply (contains_suffix (py "open.spotify.com/")).
      rewrite contains_strip_spotify. exact Hs. }
    rewrite bind_eq, try_except_eq, bind_eq, Hid.
    run_handler; cbn; eauto.
Qed.

End Handler.

(** ** Resolving the same link again *)

Section WorldBlind.
Context {W : Type}.










End WorldBlind.


Section Again.
Context {W : Type} (svc : Services W) (Hsvc : Stateless svc).




End Again.




Lemma stateless_answering track items tidal_track tidal_tracks me :
  Stateless (Worlds.answering track items tidal_track tidal_tracks me).
Proof. constructor; intros; reflexivity. Qed.


(** ** Which messages get a reply *)

Section Replies.
Context {W : Type} (svc : Services W).


End Replies.



(** ** Extracting the track id *)

Section TrackId.
Context {W : Type}.

(** X1: The id has no "?" in it, so no query string either. *)
Lemma track_id_of_no_query content (w w' : W) track_id evs :
  track_id_of content w = Run (Normal track_id) w' evs ->
  contains (py "?") track_id = false.
Proof.
  unfold track_id_of.
  destruct (split (py "track/") content !! 1%nat) as [after|] eqn:Hafter.
  - destruct (split_head (py "?") after sep_query_nonempty) as (h & Hh & Hq).
    unfold index. rewrite Hafter, bind_eq. cbn. rewrite Hh. cbn.
    intros [= <- _ _]. exact Hq.
  - unfold index. rewrite Hafter, bind_eq. cbn. discriminate.
Qed.

Lemma partition_first_char (q : N) (a b : str) :
  contains [q] a = false -> partition_first [q] (a ++ q :: b) = Some (a, b).
Proof.
  induction a as [|c a IH]; cbn [app partition_first].
  - intros _. rewrite startswith_cons, N.eqb_refl. reflexivity.
  - rewrite contains_cons, startswith_cons. cbn [startswith].
    rewrite andb_true_r. intros [Hc Ha]%orb_false_iff.
    rewrite Hc. cbn. rewrite (IH Ha). reflexivity.
Qed.

(** X2: Where the first "track/" of the text is the one before the id, and the
    id is followed by a query string, the id is extracted as it stands. *)
Lemma track_id_of_single_link content before track_id query (w : W) :
  partition_first (py "track/") content
  = Some (before, track_id ++ py "?" ++ query) ->
  contains (py "track/") (track_id ++ py "?" ++ query) = false ->
  contains (py "?") track_id = false ->
  track_id_of content w = Run (Normal track_id) w [].
Proof.
  intros Hfirst Hrest Hid. unfold track_id_of, index.
  rewrite (split_eq _ content sep_track_nonempty), Hfirst.
  rewrite (split_eq _ _ sep_track_nonempty).
  rewrite (partition_first_absent _ _ Hrest).
  rewrite bind_eq. cbn.
  rewrite (split_eq _ _ sep_query_nonempty).
  change (py "?") with [63] in *.
  change ([63] ++ query) with (63 :: query).
  rewrite (partition_first_char 63 track_id query Hid). reflexivity.
Qed.

End TrackId.

(** C2: a link with a query string, after text that has "track/" in it.
    The id is cut after the first "track/" of the text, which is not the
    link's: what is extracted is text of the message, Spotify is asked for
    that, and the track "abc123" of the link is never looked up.  The link
    alone is resolved. *)
Theorem track_id_of_link_after_text :
  content Worlds.link_after_text
  = py "new track/video: https://open.spotify.com/track/abc123?si=xyz" /\
  track_id_of (strip (content Worlds.link_after_text)) tt
  = Run (Normal (py "video: https://open.spotify.com/")) tt [] /\
  on_message Worlds.one_track Worlds.link_after_text tt
  = Run (Normal tt) tt
      [ Call (SpTrack (py "video: https://open.spotify.com/"));
        Print (py "Error processing Spotify link: 404 Not Found");
        ProcessCommands ] /\
  on_message Worlds.one_track Worlds.spotify_link tt
  = Run (Normal tt) tt
      [ Call (SpTrack (py "abc123"));
        Print (py "Detected Spotify: Daft Punk - One More Time");
        Call (TidalSearch (py "Daft Punk - One More Time"));
        Reply (tidal_conversion (py "https://tidal.com/browse/track/1260509"));
        ProcessCommands ].
Proof. vm_compute. repeat split. Qed.

Lemma track_id_of_bare_link :
  track_id_of (W:=unit)
    (py "https://open.spotify.com/track/abc123?si=xyz") tt
  = Run (Normal (py "abc123")) tt [].
Proof.
  apply (track_id_of_single_link _ (py "https://open.spotify.com/")
           (py "abc123") (py "si=xyz")); reflexivity.
Defined.

(** ** The theorems at work *)

Lemma get_url_total_witness :
  exists link : option str,
    result (get_tidal_url
              (Worlds.recovering 2 Worlds.one_more_time
                 [Worlds.one_more_time_tidal] Worlds.me)
              (py "Daft Punk") (py "One More Time") 0%nat)
    = Normal link /\
    link = None.
Proof.
  destruct (proj1 (get_url_total
                     (Worlds.recovering 2 Worlds.one_more_time
                        [Worlds.one_more_time_tidal] Worlds.me)
                     (py "Daft Punk") (py "One More Time") 0%nat))
    as (link & Hresult & Hfails & _).
  exists link. split; [exact Hresult|].
  apply (Hfails (py "timed out")). reflexivity.
Defined.


Lemma on_message_ignores_own_messages_witness :
  on_message Worlds.both_know Worlds.own_message tt = Run (Normal tt) tt [].
Proof.
  apply (on_message_ignores_own_messages Worlds.both_know Worlds.own_message tt).
  reflexivity.
Defined.

Lemma on_message_without_link_witness :
  on_message Worlds.both_know Worlds.small_talk tt
  = Run (Normal tt) tt [ProcessCommands] /\
  replies (events (on_message Worlds.both_know Worlds.small_talk tt)) = [] /\
  calls (events (on_message Worlds.both_know Worlds.small_talk tt)) = [] /\
  printed (events (on_message Worlds.both_know Worlds.small_talk tt)) = [].
Proof.
  apply (on_message_without_link Worlds.both_know Worlds.small_talk tt);
    reflexivity.
Defined.

Lemma on_message_one_branch_witness :
  (exists track_id rest,
      events (on_message Worlds.both_know Worlds.both_links tt)
      = Call (SpTrack track_id) :: rest) /\
  List.filter in_tidal_branch
    (calls (events (on_message Worlds.both_know Worlds.both_links tt))) = [].
Proof.
  apply (proj2 (proj2 (on_message_one_branch
                         Worlds.both_know Worlds.both_links tt)));
    [discriminate | reflexivity | reflexivity].
Defined.

(** With both anchors in the text the id is cut after the first "track/",
    here the TIDAL link's, and it is Spotify that is asked for it. *)
Example on_message_both_links :
  on_message Worlds.both_know Worlds.both_links tt
  = Run (Normal tt) tt
      [ Call (SpTrack (py "1260509 https://open.spotify.com/"));
        Print (py "Detected Spotify: Daft Punk - One More Time");
        Call (TidalSearch (py "Daft Punk - One More Time"));
        Reply (tidal_conversion (py "https://tidal.com/browse/track/1260509"));
        ProcessCommands ].
Proof. vm_compute. reflexivity. Qed.

(** A reply the chat platform refuses is caught with the rest of the
    branch; a failure of the command dispatcher is the one exception that
    leaves the handler. *)
Example on_message_chat_down :
  on_message
    (Worlds.chat_down Worlds.one_more_time [Worlds.one_more_time_tidal] Worlds.me)
    Worlds.spotify_link tt
  = Run (Raise (ChatError (py "503"))) tt
      [ Call (SpTrack (py "abc123"));
        Print (py "Detected Spotify: Daft Punk - One More Time");
        Call (TidalSearch (py "Daft Punk - One More Time"));
        Reply (tidal_conversion (py "https://tidal.com/browse/track/1260509"));
        Print (py "Error processing Spotify link: 403 Forbidden");
        ProcessCommands ].
Proof. vm_compute. reflexivity. Qed.

(** A Spotify track with no link under "spotify", and one with an empty
    link: the helper returns [None] after a [KeyError], or the empty text,
    and the handler reports no match either way. *)
Example get_spotify_url_without_link :
  let bare := {| Spotify.artists := []; Spotify.track_name := py "x";
                 Spotify.external_urls := ∅ |} in
  let svc := Worlds.answering (fun _ => Fails (py "404"))
               (fun _ => Returns [bare])
               (fun _ => Returns Worlds.one_more_time_tidal)
               (fun _ => Returns []) Worlds.me in
  get_spotify_url svc (py "a") (py "t") tt
  = Run (Normal None) tt
      [ Call (SpSearch (py "artist:a track:t"));
        Print (py "Error searching Spotify: 'spotify'") ] /\
  printed (events (on_message svc Worlds.tidal_link tt))
  = [ py "Detected TIDAL: Daft Punk - One More Time";
      py "Error searching Spotify: 'spotify'";
      py "Match not found on Spotify." ].
Proof. vm_compute. split; reflexivity. Qed.

(** * Further properties of the handlers *)

(** ** Where the extracted id begins and ends *)

Lemma track_id_of_no_query_witness :
  contains (py "?") (py "abc123") = false.
Proof.
  apply (track_id_of_no_query (W:=unit)
           (py "https://open.spotify.com/track/abc123?si=xyz") tt tt
           (py "abc123") []).
  reflexivity.
Defined.

Section TrackIdBounds.
Context {W : Type}.

(** X3: The index [1] is in range exactly where "track/" occurs.  A text
    without "track/" makes the extraction raise [IndexError]; a text with
    either link anchor has "track/" in it, also after [strip], so inside
    [on_message] the extraction always yields an id. *)
Theorem track_id_of_in_bounds (content : str) (w : W) :
  (contains (py "track/") content = false ->
   track_id_of content w = Run (Raise IndexError) w []) /\
  (contains spotify_anchor content = true \/
   contains tidal_anchor content = true ->
   exists track_id,
     track_id_of (strip content) w = Run (Normal track_id) w []).
Proof.
  split.
  - intros H. unfold track_id_of, index.
    rewrite (split_second_absent _ _ sep_track_nonempty H), bind_eq.
    reflexivity.
  - intros H.
    assert (Htrack : contains (py "track/") (strip content) = true).
    { destruct H as [H|H].
      - apply (contains_suffix (py "open.spotify.com/")).
        rewrite contains_strip_spotify. exact H.
      - apply (contains_suffix (py "tidal.com/browse/")).
        rewrite contains_strip_tidal. exact H. }
    destruct (track_id_of_found (strip content) w Htrack) as (track_id & Hid & _).
    exists track_id. exact Hid.
Qed.

(** X4: With no "?" and no second "track/" after the first "track/", the id is
    all the text from there to the end: words typed after a link with no
    query string become part of the id. *)
Theorem track_id_of_runs_to_end (content before rest : str) (w : W) :
  partition_first (py "track/") content = Some (before, rest) ->
  contains (py "track/") rest = false ->
  contains (py "?") rest = false ->
  track_id_of content w = Run (Normal rest) w [].
Proof.
  intros Hfirst Htrack Hquery. unfold track_id_of, index.
  rewrite (split_eq _ content sep_track_nonempty), Hfirst.
  rewrite (split_eq _ rest sep_track_nonempty).
  rewrite (partition_first_absent _ _ Htrack).
  rewrite bind_eq. cbn.
  rewrite (split_eq _ rest sep_query_nonempty).
  rewrite (partition_first_absent _ _ Hquery). reflexivity.
Qed.

End TrackIdBounds.

Lemma track_id_of_in_bounds_witness :
  track_id_of (W:=unit) (py "good morning") tt = Run (Raise IndexError) tt [] /\
  exists track_id,
    track_id_of (W:=unit) (strip (content Worlds.both_links)) tt
    = Run (Normal track_id) tt [].
Proof.
  split.
  - apply (proj1 (track_id_of_in_bounds (py "good morning") tt)). reflexivity.
  - apply (proj2 (track_id_of_in_bounds (content Worlds.both_links) tt)).
    left. reflexivity.
Defined.

Lemma track_id_of_runs_to_end_witness :
  track_id_of (W:=unit) (content MoreWorlds.link_then_words) tt
  = Run (Normal (py "abc123 great song")) tt [].
Proof.
  apply (track_id_of_runs_to_end _ (py "https://open.spotify.com/"));
    reflexivity.
Defined.

(** ** The links the bot builds, read back by the bot *)

Section Digits.
Implicit Types p s : str.

Lemma py_String (a : Ascii.ascii) (t : string) :
  py (String a t) = Ascii.N_of_ascii a :: py t.
Proof. reflexivity. Qed.

Lemma digits_string_of_uint (d : Decimal.uint) :
  Forall (fun c => is_digit c = true) (py (NilEmpty.string_of_uint d)).
Proof.
  induction d; cbn [NilEmpty.string_of_uint]; [constructor|..];
    rewrite py_String; (constructor; [reflexivity | assumption]).
Qed.

(** [str(n)] is a non-empty run of digits. *)
Lemma str_of_int_digits (n : N) :
  str_of_int n <> [] /\ Forall (fun c => is_digit c = true) (str_of_int n).
Proof.
  unfold str_of_int, NilZero.string_of_uint.
  destruct (N.to_uint n) as [|d|d|d|d|d|d|d|d|d|d].
  1: split; [discriminate | repeat constructor].
  all: split;
    [ discriminate
    | match goal with
      | |- context [NilEmpty.string_of_uint ?x] =>
          apply (digits_string_of_uint x)
      end ].
Qed.

Lemma is_digit_not_space (c : N) : is_digit c = true -> is_space c = false.
Proof.
  unfold is_digit. rewrite andb_true_iff, !N.leb_le. intros Hd.
  apply not_true_is_false. unfold is_space.
  rewrite !orb_true_iff, !andb_true_iff, !N.leb_le, !N.eqb_eq. lia.
Qed.

(** A text that begins with something other than a digit does not occur in
    a run of digits. *)
Lemma contains_digits p x s :
  head p = Some x -> is_digit x = false ->
  Forall (fun c => is_digit c = true) s -> contains p s = false.
Proof.
  intros Hx Hnd. destruct p as [|x' p]; [discriminate|]. injection Hx as ->.
  induction 1 as [|c s Hc _ IH].
  - apply contains_nil_r. discriminate.
  - rewrite contains_cons, IH, orb_false_r, startswith_cons.
    destruct (N.eqb_spec x c) as [->|_]; [congruence | reflexivity].
Qed.

(** [rstrip] leaves a text alone that does not end in white space. *)
Lemma rstrip_keeps s y :
  last s = Some y -> is_space y = false -> rstrip s = s.
Proof.
  intros Hy Hsp. induction s as [|c s IH]; [reflexivity|].
  cbn [rstrip]. destruct s as [|c' s].
  - injection Hy as ->. cbn. rewrite Hsp. reflexivity.
  - rewrite IH by exact Hy. reflexivity.
Qed.

Lemma last_digits s :
  s <> [] -> Forall (fun c => is_digit c = true) s ->
  exists y, last s = Some y /\ is_digit y = true.
Proof.
  intros Hs Hd. destruct (proj2 (last_is_Some s) Hs) as [y Hy].
  exists y. split; [exact Hy|].
  apply last_Some in Hy as [l' ->].
  apply Forall_app in Hd as [_ Hd]. inversion Hd; assumption.
Qed.

(** [strip] leaves a TIDAL link alone. *)
Lemma strip_tidal_track_url (n : N) :
  strip (tidal_track_url n) = tidal_track_url n.
Proof.
  destruct (str_of_int_digits n) as [Hne Hd].
  destruct (last_digits _ Hne Hd) as (y & Hy & Hdy).
  unfold strip, tidal_track_url.
  rewrite (rstrip_keeps _ y); [reflexivity | | apply is_digit_not_space, Hdy].
  rewrite last_app, Hy. reflexivity.
Qed.

Lemma partition_first_tidal_track_url s :
  partition_first (py "track/") (py "https://tidal.com/browse/track/" ++ s)
  = Some (py "https://tidal.com/browse/", s).
Proof. reflexivity. Qed.

Lemma contains_spotify_tidal_prefix s :
  contains spotify_anchor (py "https://tidal.com/browse/track/" ++ s)
  = contains spotify_anchor s.
Proof. reflexivity. Qed.

End Digits.

Section ReadBack.
Context {W : Type} (svc : Services W).

(** X5: A link as [get_tidal_url] builds it is read back to the id it was built
    from: it has the TIDAL anchor and not the Spotify one, and the id
    extracted from it is [str(n)] again. *)
Theorem tidal_track_url_round_trip (n : N) (w : W) :
  contains tidal_anchor (tidal_track_url n) = true /\
  contains spotify_anchor (tidal_track_url n) = false /\
  track_id_of (strip (tidal_track_url n)) w = Run (Normal (str_of_int n)) w [].
Proof.
  destruct (str_of_int_digits n) as [_ Hd].
  assert (Htrack : contains (py "track/") (str_of_int n) = false)
    by (apply (contains_digits _ 116); [reflexivity | reflexivity | exact Hd]).
  assert (Hquery : contains (py "?") (str_of_int n) = false)
    by (apply (contains_digits _ 63); [reflexivity | reflexivity | exact Hd]).
  split; [|split].
  - apply contains_spec. exists (py "https://"), (str_of_int n). reflexivity.
  - unfold tidal_track_url. rewrite contains_spotify_tidal_prefix.
    apply (contains_digits _ 111); [reflexivity | reflexivity | exact Hd].
  - rewrite strip_tidal_track_url. unfold tidal_track_url, track_id_of, index.
    rewrite (split_eq _ _ sep_track_nonempty), partition_first_tidal_track_url.
    rewrite (split_eq _ _ sep_track_nonempty).
    rewrite (partition_first_absent _ _ Htrack).
    rewrite bind_eq. cbn.
    rewrite (split_eq _ _ sep_query_nonempty).
    rewrite (partition_first_absent _ _ Hquery). reflexivity.
Qed.

(** X6: Whatever link [get_tidal_url] returns, a message that is this link is
    handled by the TIDAL branch, and TIDAL is asked for the very id the link
    was built from. *)
Theorem on_message_reads_back_tidal_link artist track_name (w : W) link
    (m : Message) (w2 : W) :
  result (get_tidal_url svc artist track_name w) = Normal (Some link) ->
  author m <> bot_user svc ->
  content m = link ->
  exists n rest,
    link = tidal_track_url n /\
    events (on_message svc m w2) = Call (TidalTrack (str_of_int n)) :: rest.
Proof.
  rewrite get_tidal_url_run. cbn zeta. intros Hlink Hme%N.eqb_neq Hm.
  assert (exists n, link = tidal_track_url n) as [n Hn].
  { destruct (tidal_session_search svc _ w) as [[[|t l]|msg] w'];
      cbn [result] in Hlink; try discriminate.
    injection Hlink as <-. exists (Tidal.id t). reflexivity. }
  subst link. rename Hn into Hm. exists n.
  destruct (str_of_int_digits n) as [_ Hd].
  assert (Hs : contains spotify_anchor (tidal_track_url n) = false).
  { unfold tidal_track_url. rewrite contains_spotify_tidal_prefix.
    apply (contains_digits _ 111); [reflexivity | reflexivity | exact Hd]. }
  assert (Ht : contains tidal_anchor (tidal_track_url n) = true).
  { apply contains_spec. exists (py "https://"), (str_of_int n). reflexivity. }
  assert (Hid : track_id_of (strip (tidal_track_url n)) w2
                = Run (Normal (str_of_int n)) w2 []).
  { assert (Htrack : contains (py "track/") (str_of_int n) = false)
      by (apply (contains_digits _ 116); [reflexivity | reflexivity | exact Hd]).
    assert (Hquery : contains (py "?") (str_of_int n) = false)
      by (apply (contains_digits _ 63); [reflexivity | reflexivity | exact Hd]).
    rewrite strip_tidal_track_url. unfold tidal_track_url, track_id_of, index.
    rewrite (split_eq _ _ sep_track_nonempty), partition_first_tidal_track_url.
    rewrite (split_eq _ _ sep_track_nonempty).
    rewrite (partition_first_absent _ _ Htrack).
    rewrite bind_eq. cbn.
    rewrite (split_eq _ _ sep_query_nonempty).
    rewrite (partition_first_absent _ _ Hquery). reflexivity. }
  unfold on_message. rewrite Hme, Hm.
  unfold spotify_anchor, tidal_anchor in *.
  rewrite contains_strip_spotify, contains_strip_tidal, Hs, Ht.
  repeat first [rewrite Hid | handler_step]; cbn; eauto.
Qed.

End ReadBack.

Lemma on_message_reads_back_tidal_link_witness :
  exists n rest,
    py "https://tidal.com/browse/track/1260509" = tidal_track_url n /\
    events (on_message Worlds.both_know MoreWorlds.pasted_tidal_link tt)
    = Call (TidalTrack (str_of_int n)) :: rest.
Proof.
  apply (on_message_reads_back_tidal_link Worlds.both_know
           (py "Daft Punk") (py "One More Time") tt
           (py "https://tidal.com/browse/track/1260509")
           MoreWorlds.pasted_tidal_link tt).
  - vm_compute. reflexivity.
  - discriminate.
  - vm_compute. reflexivity.
Defined.

(** ** Answers the handlers cannot use *)

Section Edges.
Context {W : Type} (svc : Services W).

(** X7: The first track Spotify's search returns has no link under "spotify":
    the [KeyError] is caught in the helper, which prints it and returns
    [None]. *)
Theorem get_spotify_url_missing_key artist track_name (w w' : W) item0 rest :
  sp_search svc (py "artist:" ++ artist ++ py " track:" ++ track_name) w
  = (Returns (item0 :: rest), w') ->
  Spotify.external_urls item0 !! py "spotify" = None ->
  get_spotify_url svc artist track_name w
  = Run (Normal None) w'
      [ Call (SpSearch (py "artist:" ++ artist ++ py " track:" ++ track_name));
        Print (py "Error searching Spotify: 'spotify'") ].
Proof.
  intros Hsearch Hkey. rewrite get_spotify_url_run. cbn zeta.
  rewrite Hsearch, Hkey. reflexivity.
Qed.

(** X8: The track Spotify's search returns carries the empty text as its link:
    the helper returns it, the handler takes it as no link at all, prints
    "Match not found on Spotify." and sends no reply. *)
Theorem on_message_empty_link_is_no_match (m : Message) (w w1 w2 : W)
    track_id tidal_track artist item0 rest :
  author m <> bot_user svc ->
  contains spotify_anchor (content m) = false ->
  contains tidal_anchor (content m) = true ->
  track_id_of (strip (content m)) w = Run (Normal track_id) w [] ->
  tidal_session_track svc track_id w = (Returns tidal_track, w1) ->
  Tidal.artist tidal_track = Some artist ->
  sp_search svc (py "artist:" ++ Tidal.name artist ++ py " track:" ++
                 Tidal.track_name tidal_track) w1
  = (Returns (item0 :: rest), w2) ->
  Spotify.external_urls item0 !! py "spotify" = Some (py "") ->
  result (get_spotify_url svc (Tidal.name artist)
            (Tidal.track_name tidal_track) w1) = Normal (Some (py "")) /\
  events (on_message svc m w)
  = [ Call (TidalTrack track_id);
      Print (py "Detected TIDAL: " ++ Tidal.name artist ++ py " - " ++
             Tidal.track_name tidal_track);
      Call (SpSearch (py "artist:" ++ Tidal.name artist ++ py " track:" ++
                      Tidal.track_name tidal_track));
      Print (py "Match not found on Spotify.") ] ++
    events (process_commands svc m w2).
Proof.
  unfold spotify_anchor, tidal_anchor.
  intros Hme%N.eqb_neq Hs Ht Hid Htrack Hartist Hsearch Hkey. split.
  - rewrite get_spotify_url_run. cbn zeta. rewrite Hsearch. cbn beta iota.
    rewrite Hkey. reflexivity.
  - unfold on_message.
    rewrite Hme, contains_strip_spotify, contains_strip_tidal, Hs, Ht.
    repeat first
      [ rewrite Hid | rewrite Htrack | rewrite Hartist | rewrite Hsearch
      | rewrite Hkey | handler_step ];
      reflexivity.
Qed.

(** X9: A looked-up track without artist ends its branch before any search.
    Spotify's track with an empty artist list raises [IndexError], TIDAL's
    track whose artist is [None] raises [AttributeError]; either is caught
    and printed, no search is sent and nothing is replied. *)
Theorem on_message_track_without_artist (m : Message) (w w1 : W) track_id :
  author m <> bot_user svc ->
  track_id_of (strip (content m)) w = Run (Normal track_id) w [] ->
  (forall track_info,
      contains spotify_anchor (content m) = true ->
      sp_track svc track_id w = (Returns track_info, w1) ->
      Spotify.artists track_info = [] ->
      events (on_message svc m w)
      = [ Call (SpTrack track_id);
          Print (py "Error processing Spotify link: list index out of range") ] ++
        events (process_commands svc m w1)) /\
  (forall tidal_track,
      contains spotify_anchor (content m) = false ->
      contains tidal_anchor (content m) = true ->
      tidal_session_track svc track_id w = (Returns tidal_track, w1) ->
      Tidal.artist tidal_track = None ->
      events (on_message svc m w)
      = [ Call (TidalTrack track_id);
          Print (py "Error processing TIDAL link: 'NoneType' object has no attribute 'name'") ] ++
        events (process_commands svc m w1)).
Proof.
  unfold spotify_anchor, tidal_anchor. intros Hme%N.eqb_neq Hid. split.
  - intros track_info Hs Htrack Hartists. unfold on_message.
    rewrite Hme, contains_strip_spotify, Hs.
    repeat first
      [ rewrite Hid | rewrite Htrack | rewrite Hartists | handler_step ];
      reflexivity.
  - intros tidal_track Hs Ht Htrack Hartist. unfold on_message.
    rewrite Hme, contains_strip_spotify, contains_strip_tidal, Hs, Ht.
    repeat first
      [ rewrite Hid | rewrite Htrack | rewrite Hartist | handler_step ];
      reflexivity.
Qed.

(** X10: A reply the chat platform refuses does not leave the handler: the
    failure is caught with the rest of the branch, printed as an error of
    processing the link, and the commands are dispatched all the same. *)
Theorem on_message_reply_failure_is_caught (m : Message) (w w1 w2 w3 : W)
    track_id track_info artist0 track rest msg :
  author m <> bot_user svc ->
  contains spotify_anchor (content m) = true ->
  track_id_of (strip (content m)) w = Run (Normal track_id) w [] ->
  sp_track svc track_id w = (Returns track_info, w1) ->
  Spotify.artists track_info !! 0%nat = Some artist0 ->
  tidal_session_search svc
    (Spotify.name artist0 ++ py " - " ++ Spotify.track_name track_info) w1
  = (Returns (track :: rest), w2) ->
  message_reply svc m (tidal_conversion (tidal_track_url (Tidal.id track))) w2
  = (Fails msg, w3) ->
  result (on_message svc m w) = result (process_commands svc m w3) /\
  events (on_message svc m w)
  = [ Call (SpTrack track_id);
      Print (py "Detected Spotify: " ++ Spotify.name artist0 ++ py " - " ++
             Spotify.track_name track_info);
      Call (TidalSearch (Spotify.name artist0 ++ py " - " ++
                         Spotify.track_name track_info));
      Reply (tidal_conversion (tidal_track_url (Tidal.id track)));
      Print (py "Error processing Spotify link: " ++ msg) ] ++
    events (process_commands svc m w3).
Proof.
  unfold spotify_anchor.
  intros Hme%N.eqb_neq Hs Hid Htrack Hartist Hsearch Hreply.
  assert (Htruthy : truthy (Some (tidal_track_url (Tidal.id track))) = true)
    by reflexivity.
  unfold tidal_track_url in *. unfold on_message.
  rewrite Hme, contains_strip_spotify, Hs.
  repeat first
    [ rewrite Hid | rewrite Htrack | rewrite Hartist | rewrite Hsearch
    | rewrite Htruthy
    | progress (cbn [format]) | rewrite Hreply | handler_step ];
    split; reflexivity.
Qed.

End Edges.

(** ** What every run of the handler looks like *)

Section Shapes.
Context {W : Type} (svc : Services W).

(** X11: A message of somebody else is always handed to the command dispatcher,
    once, as the last thing the handler does, whatever became of the link
    in it. *)
Theorem on_message_dispatches_commands_once (m : Message) (w : W) :
  author m <> bot_user svc ->
  exists evs,
    events (on_message svc m w) = evs ++ [ProcessCommands] /\
    Forall (fun e => e <> ProcessCommands) evs.
Proof.
  intros Hme%N.eqb_neq. unfold on_message. rewrite Hme.
  run_handler; eexists; (split; [reflexivity|]);
    cbn; repeat constructor; discriminate.
Qed.

(** X12: The requests of a run are none, a lookup, or a lookup followed by the
    search on the other service: a search is never sent without the lookup
    before it.  A reply is one of the two conversion texts with a link that
    is not empty, sent after both the lookup and the search. *)
Theorem on_message_call_shapes (m : Message) (w : W) :
  (calls (events (on_message svc m w)) = [] \/
   (exists track_id,
       calls (events (on_message svc m w)) = [SpTrack track_id]) \/
   (exists track_id query,
       calls (events (on_message svc m w))
       = [SpTrack track_id; TidalSearch query]) \/
   (exists track_id,
       calls (events (on_message svc m w)) = [TidalTrack track_id]) \/
   (exists track_id q,
       calls (events (on_message svc m w)) = [TidalTrack track_id; SpSearch q])) /\
  (forall text,
      In text (replies (events (on_message svc m w))) ->
      (exists track_id query link,
          link <> [] /\ text = tidal_conversion link /\
          calls (events (on_message svc m w))
          = [SpTrack track_id; TidalSearch query]) \/
      (exists track_id q link,
          link <> [] /\ text = spotify_conversion link /\
          calls (events (on_message svc m w))
          = [TidalTrack track_id; SpSearch q])).
Proof.
  split.
  - unfold on_message. run_handler; cbn; eauto 10.
  - unfold on_message. run_handler; cbn; intros text Hin;
      repeat (destruct Hin as [Hin|Hin]; [subst text|]); try contradiction.
    all: first
      [ left; do 3 eexists; (split; [|split; reflexivity]); discriminate
      | right; do 3 eexists; (split; [|split; reflexivity]);
        intros ->; discriminate ].
Qed.

End Shapes.

(** ** Start-up *)

Lemma printed_app (evs evs' : list event) :
  printed (evs ++ evs') = printed evs ++ printed evs'.
Proof. apply omap_app. Qed.

Lemma printed_map_Print (lines : list str) : printed (map Print lines) = lines.
Proof.
  induction lines as [|l lines IH]; [reflexivity|].
  change (printed (map Print (l :: lines)))
    with (l :: printed (map Print lines)).
  rewrite IH. reflexivity.
Qed.

(** X13: [on_ready] never fails because the TIDAL login fails.  It tries the
    login once and ends normally either way; what it prints is its own two
    opening lines, what the login printed, and then "TIDAL Login
    Successful." if the login returned or "TIDAL Login failed: ..." with the
    error if it raised. *)
Theorem on_ready_contains_login_failure {W : Type} (st : Startup W) (w : W) :
  result (on_ready st w) = Normal tt /\
  final (on_ready st w) = snd (tidal_session_login_oauth_simple st w) /\
  printed (events (on_ready st w))
  = [ py "Logged in as " ++ bot_user_name st;
      py "Authenticating with TIDAL... check your terminal." ] ++
    fst (fst (tidal_session_login_oauth_simple st w)) ++
    [ match snd (fst (tidal_session_login_oauth_simple st w)) with
      | Returns _ => py "TIDAL Login Successful."
      | Fails msg => py "TIDAL Login failed: " ++ msg
      end ].
Proof.
  unfold on_ready, login_oauth_simple_call.
  destruct (tidal_session_login_oauth_simple st w) as [[lines [[]|msg]] w'] eqn:E;
    cbn [fst snd];
    repeat first [rewrite E | run_step];
    (split; [reflexivity|]); (split; [reflexivity|]);
    rewrite !printed_app, printed_map_Print; reflexivity.
Qed.

Example on_ready_login_expires :
  on_ready Startups.login_expires 0%nat
  = Run (Normal tt) 1%nat
      [ Print (py "Logged in as link-bot");
        Print (py "Authenticating with TIDAL... check your terminal.");
        Print Startups.visit;
        Print (py "TIDAL Login failed: Login timed out") ].
Proof. vm_compute. reflexivity. Qed.

Example on_ready_login_works :
  on_ready Startups.login_works 0%nat
  = Run (Normal tt) 1%nat
      [ Print (py "Logged in as link-bot");
        Print (py "Authenticating with TIDAL... check your terminal.");
        Print Startups.visit;
        Print (py "TIDAL Login Successful.") ].
Proof. vm_compute. reflexivity. Qed.

(** ** White space around the text *)

Section OuterSpace.
Implicit Types s lead trail : str.

Lemma lstrip_spaces lead s :
  Forall (fun c => is_space c = true) lead -> lstrip (lead ++ s) = lstrip s.
Proof.
  induction 1 as [|c lead Hc _ IH]; [reflexivity|].
  cbn [app lstrip]. rewrite Hc. exact IH.
Qed.

Lemma rstrip_spaces trail :
  Forall (fun c => is_space c = true) trail -> rstrip trail = [].
Proof.
  induction 1 as [|c trail Hc _ IH]; [reflexivity|].
  cbn [rstrip]. rewrite IH, Hc. reflexivity.
Qed.

Lemma rstrip_app s t :
  rstrip (s ++ t) = match rstrip t with [] => rstrip s | r => s ++ r end.
Proof.
  induction s as [|c s IH].
  - cbn [app rstrip]. destruct (rstrip t); reflexivity.
  - cbn [app rstrip]. rewrite IH. destruct (rstrip t) as [|x r]; [reflexivity|].
    destruct s; reflexivity.
Qed.

(** [strip] takes off any white space put around a text. *)
Lemma strip_outer_space lead s trail :
  Forall (fun c => is_space c = true) lead ->
  Forall (fun c => is_space c = true) trail ->
  strip (lead ++ s ++ trail) = strip s.
Proof.
  intros Hlead Htrail. unfold strip.
  rewrite app_assoc, rstrip_app, (rstrip_spaces trail Htrail).
  rewrite rstrip_app. destruct (rstrip s) as [|x r].
  - rewrite (rstrip_spaces lead Hlead). reflexivity.
  - apply lstrip_spaces, Hlead.
Qed.

End OuterSpace.

Section SameRun.
Context {W : Type}.

Lemma bind_ext {A B : Type} (m m' : M W A) (k k' : A -> M W B) (w : W) :
  (forall w, m w = m' w) -> (forall a w, k a w = k' a w) ->
  bind m k w = bind m' k' w.
Proof.
  intros Hm Hk. rewrite !bind_eq, Hm.
  destruct (m' w) as [[a|e] w1 evs1]; [rewrite Hk|]; reflexivity.
Qed.

Lemma try_except_ext {A : Type} (body body' : M W A)
    (handler handler' : exn -> M W A) (w : W) :
  (forall w, body w = body' w) -> (forall e w, handler e w = handler' e w) ->
  try_except body handler w = try_except body' handler' w.
Proof.
  intros Hm Hk. rewrite !try_except_eq, Hm.
  destruct (body' w) as [[a|e] w1 evs1]; [|rewrite Hk]; reflexivity.
Qed.

End SameRun.

(** Two computations are shown to run alike, piece by piece. *)
Ltac same_run_step :=
  first
    [ reflexivity
    | apply bind_ext; [intros ? | intros ? ?]
    | apply try_except_ext; [intros ? | intros ? ?]
    | case_match ].

(** X14: White space before and after the text of a message changes nothing:
    as long as the chat platform treats the two messages alike, the padded
    message is handled exactly as the bare one, with the same requests,
    prints and reply. *)
Theorem on_message_ignores_outer_space {W : Type} (svc : Services W)
    (m padded : Message) (lead trail : str) (w : W) :
  author padded = author m ->
  content padded = lead ++ content m ++ trail ->
  Forall (fun c => is_space c = true) lead ->
  Forall (fun c => is_space c = true) trail ->
  (forall text w, message_reply svc padded text w = message_reply svc m text w) ->
  (forall w, bot_process_commands svc padded w = bot_process_commands svc m w) ->
  on_message svc padded w = on_message svc m w.
Proof.
  intros Hauthor Hcontent Hlead Htrail Hreply Hcommands.
  unfold on_message.
  rewrite Hauthor, Hcontent, (strip_outer_space lead _ trail Hlead Htrail).
  destruct (author m =? bot_user svc); [reflexivity|].
  cbn zeta. revert w.
  assert (Hr : forall text w, reply svc padded text w = reply svc m text w)
    by (intros; unfold reply, external; rewrite Hreply; reflexivity).
  assert (Hp : forall w, process_commands svc padded w = process_commands svc m w)
    by (intros; unfold process_commands, external; rewrite Hcommands;
        reflexivity).
  intros w. apply bind_ext; [intros w0 | intros ? ?; apply Hp].
  repeat first [apply Hr | same_run_step].
Qed.

Lemma on_message_ignores_outer_space_witness :
  on_message Worlds.both_know MoreWorlds.padded_link tt
  = on_message Worlds.both_know Worlds.spotify_link tt.
Proof.
  apply (on_message_ignores_outer_space Worlds.both_know
           Worlds.spotify_link MoreWorlds.padded_link (py "  ") [10] tt).
  - reflexivity.
  - reflexivity.
  - repeat constructor.
  - repeat constructor.
  - reflexivity.
  - reflexivity.
Defined.

(** ** The further theorems at work *)

Lemma get_spotify_url_missing_key_witness :
  get_spotify_url MoreWorlds.bare_answers (py "Daft Punk") (py "One More Time") tt
  = Run (Normal None) tt
      [ Call (SpSearch (py "artist:" ++ py "Daft Punk" ++ py " track:" ++
                        py "One More Time"));
        Print (py "Error searching Spotify: 'spotify'") ].
Proof.
  apply (get_spotify_url_missing_key MoreWorlds.bare_answers
           (py "Daft Punk") (py "One More Time") tt tt MoreWorlds.no_artists []).
  - reflexivity.
  - vm_compute. reflexivity.
Defined.

Lemma on_message_empty_link_is_no_match_witness :
  result (get_spotify_url MoreWorlds.empty_link_found
            (py "Daft Punk") (py "One More Time") tt) = Normal (Some (py "")) /\
  events (on_message MoreWorlds.empty_link_found Worlds.tidal_link tt)
  = [ Call (TidalTrack (py "1260509"));
      Print (py "Detected TIDAL: " ++ py "Daft Punk" ++ py " - " ++
             py "One More Time");
      Call (SpSearch (py "artist:" ++ py "Daft Punk" ++ py " track:" ++
                      py "One More Time"));
      Print (py "Match not found on Spotify.") ] ++
    events (process_commands MoreWorlds.empty_link_found Worlds.tidal_link tt).
Proof.
  apply (on_message_empty_link_is_no_match MoreWorlds.empty_link_found
           Worlds.tidal_link tt tt tt (py "1260509")
           Worlds.one_more_time_tidal {| Tidal.name := py "Daft Punk" |}
           MoreWorlds.empty_link []).
  - discriminate.
  - reflexivity.
  - reflexivity.
  - reflexivity.
  - reflexivity.
  - reflexivity.
  - reflexivity.
  - vm_compute. reflexivity.
Defined.

Lemma on_message_track_without_artist_witness :
  events (on_message MoreWorlds.bare_answers Worlds.spotify_link tt)
  = [ Call (SpTrack (py "abc123"));
      Print (py "Error processing Spotify link: list index out of range") ] ++
    events (process_commands MoreWorlds.bare_answers Worlds.spotify_link tt).
Proof.
  apply (proj1 (on_message_track_without_artist MoreWorlds.bare_answers
                  Worlds.spotify_link tt tt (py "abc123")
                  ltac:(discriminate) eq_refl)
           MoreWorlds.no_artists);
    reflexivity.
Defined.

Lemma on_message_reply_failure_is_caught_witness :
  let svc := Worlds.chat_down Worlds.one_more_time
               [Worlds.one_more_time_tidal] Worlds.me in
  result (on_message svc Worlds.spotify_link tt)
  = result (process_commands svc Worlds.spotify_link tt) /\
  events (on_message svc Worlds.spotify_link tt)
  = [ Call (SpTrack (py "abc123"));
      Print (py "Detected Spotify: " ++ py "Daft Punk" ++ py " - " ++
             py "One More Time");
      Call (TidalSearch (py "Daft Punk" ++ py " - " ++ py "One More Time"));
      Reply (tidal_conversion (tidal_track_url 1260509));
      Print (py "Error processing Spotify link: " ++ py "403 Forbidden") ] ++
    events (process_commands svc Worlds.spotify_link tt).
Proof.
  cbv zeta.
  apply (on_message_reply_failure_is_caught
           (Worlds.chat_down Worlds.one_more_time
              [Worlds.one_more_time_tidal] Worlds.me)
           Worlds.spotify_link tt tt tt tt (py "abc123")
           Worlds.one_more_time {| Spotify.name := py "Daft Punk" |}
           Worlds.one_more_time_tidal [] (py "403 Forbidden"));
    first [discriminate | reflexivity].
Defined.

Lemma on_message_dispatches_commands_once_witness :
  exists evs,
    events (on_message Worlds.both_know Worlds.spotify_link tt)
    = evs ++ [ProcessCommands] /\
    Forall (fun e => e <> ProcessCommands) evs.
Proof.
  apply (on_message_dispatches_commands_once Worlds.both_know
           Worlds.spotify_link tt).
  discriminate.
Defined.

Lemma on_message_call_shapes_witness :
  exists track_id query link,
    link <> [] /\
    tidal_conversion (py "https://tidal.com/browse/track/1260509")
    = tidal_conversion link /\
    calls (events (on_message Worlds.both_know Worlds.spotify_link tt))
    = [SpTrack track_id; TidalSearch query].
Proof.
  destruct (proj2 (on_message_call_shapes Worlds.both_know
                     Worlds.spotify_link tt)
              (tidal_conversion (py "https://tidal.com/browse/track/1260509")))
    as [H|(? & ? & ? & _ & _ & H)].
  - left. reflexivity.
  - exact H.
  - discriminate H.
Defined.
